(** * ROI simulator of api_explorer_dashboard.py

    A shallow embedding of the "ROI Simulator" section of
    [src/api_explorer_dashboard.py] (lines 906-1225): the trade ledger kept
    in [st.session_state], the button callbacks that mutate it, and the
    computation of the current spot balance, the high-water mark of the net
    spot flow, the principal adjustment, the adjusted PnL and the ROI; and
    of the response test and the position rows of the Coinmap Simulator.

    Numbers.  The simulator's amounts are what [st.number_input] returns,
    binary64 floats.  The control flow, the ledger operations, the
    comparisons and the bounds are stated on exact rationals ([Q], compared
    with [==]); they do not rest on an exact identity between two ways of
    computing a number.  Where a statement is about such an identity (the
    spot balance against its closed form), the code is transcribed over
    binary64 numbers in the module [F64], with the rounding of each
    operation.  Python's [min], [max], [sum], [/] and [list.pop] are modelled
    with the behaviour they have on these values. *)

From Stdlib Require Import PrimFloat FloatOps FloatAxioms SpecFloat.
From Stdlib Require Import String.
From Stdlib Require Import QArith Qminmax Qabs ZArith List Bool Lia Lqa.
Import ListNotations.

Local Open Scope Q_scope.

(** ** Python primitives *)

Module Py.

(** The exceptions the modelled code can raise. *)
Inductive exn : Set :=
| IndexError
| ZeroDivisionError.

(** How a call ends: it returns, or an exception propagates. *)
Inductive outcome : Set :=
| Returned
| Raised (e : exn).

(** [a < b] on numbers, as a boolean. *)
Definition ltb (a b : Q) : bool := negb (Qle_bool b a).

(** [max(a, b)]: the first argument unless the second is greater. *)
Definition max (a b : Q) : Q := if ltb a b then b else a.

(** [min(a, b)]: the first argument unless the second is smaller. *)
Definition min (a b : Q) : Q := if ltb b a then b else a.

(** [sum(xs)]: starts from 0 and adds from left to right. *)
Definition sum (xs : list Q) : Q := fold_left Qplus xs 0.

(** [a / b]: raises ZeroDivisionError when [b] is zero. *)
Definition truediv (a b : Q) : exn + Q :=
  if Qeq_bool b 0 then inl ZeroDivisionError else inr (a / b).

(** [xs.pop(i)]: a negative index counts from the end; an index outside
    the list raises IndexError and leaves the list as it was; otherwise the
    element is removed and returned. *)
Definition pop {A : Type} (xs : list A) (i : Z) : option (A * list A) :=
  let n := Z.of_nat (length xs) in
  let j := if (i <? 0)%Z then (i + n)%Z else i in
  if ((j <? 0) || (n <=? j))%Z then None
  else
    match nth_error xs (Z.to_nat j) with
    | Some x => Some (x, firstn (Z.to_nat j) xs ++ skipn (S (Z.to_nat j)) xs)
    | None => None
    end.

End Py.

(** ** Data model *)

(** The ['type'] entry of a trade record: the string ['SELL'] or ['BUY']. *)
Inductive side : Set := SELL | BUY.

Definition side_eqb (a b : side) : bool :=
  match a, b with
  | SELL, SELL | BUY, BUY => true
  | _, _ => false
  end.

(** A trade record [{'type': ..., 'amount': ..., 'pnl': ...}]. *)
Record trade : Set := mkTrade {
  ttype : side;
  amount : Q;
  pnl : Q
}.

(** The entries of [st.session_state] the simulator reads and writes: the
    two ledgers, the number inputs of the form (stored under their widget
    keys), the two stored totals, and the inputs of the "add" rows.  The
    form draws its widgets on every run, so each key is present when a
    callback fires: the defaults of [session_state.get(key, 0.0)] and of
    [t.get('pnl', 0.0)] (every trade record is created with a ['pnl']
    entry) are never taken, and a read is a field access. *)
Record session_state : Set := mkState {
  sim_trades : list trade;
  sim_futures_pnl : list Q;
  sim_start_bal : Q;
  sim_end_bal : Q;
  sim_ext_dep : Q;
  sim_ext_wd : Q;
  sim_manual_pnl : Q;
  sim_init_spot : Q;
  sim_spot_sell : Q;
  sim_spot_buy : Q;
  new_sell_input : Q;
  new_sell_pnl : Q;
  new_buy_input : Q;
  new_futures_pnl_input : Q
}.

(** The sidebar's exchange selector; the code only asks whether the chosen
    label starts with "OKX". *)
Inductive exchange_mode : Set := OKX | Binance.

Definition startswith_OKX (m : exchange_mode) : bool :=
  match m with OKX => true | Binance => false end.

(** ** Ledger store: the callbacks *)

Definition set_sim_trades (l : list trade) (st : session_state) : session_state :=
  mkState l (sim_futures_pnl st) (sim_start_bal st) (sim_end_bal st)
          (sim_ext_dep st) (sim_ext_wd st) (sim_manual_pnl st) (sim_init_spot st)
          (sim_spot_sell st) (sim_spot_buy st)
          (new_sell_input st) (new_sell_pnl st) (new_buy_input st)
          (new_futures_pnl_input st).

Definition set_sim_futures_pnl (l : list Q) (st : session_state) : session_state :=
  mkState (sim_trades st) l (sim_start_bal st) (sim_end_bal st)
          (sim_ext_dep st) (sim_ext_wd st) (sim_manual_pnl st) (sim_init_spot st)
          (sim_spot_sell st) (sim_spot_buy st)
          (new_sell_input st) (new_sell_pnl st) (new_buy_input st)
          (new_futures_pnl_input st).

(** [sum(t['amount'] for t in trades if t['type'] == s)]. *)
Definition sum_amount (s : side) (trades : list trade) : Q :=
  Py.sum (map amount (filter (fun t => side_eqb (ttype t) s) trades)).

(** [recalc_balance]: stores the two spot totals and overwrites
    [sim_end_bal] with the balance estimated from the other inputs. *)
Definition recalc_balance (st : session_state) : session_state :=
  let sb := sim_start_bal st in
  let ed := sim_ext_dep st in
  let ew := sim_ext_wd st in
  let manual_pnl_sum := Py.sum (sim_futures_pnl st) in
  let ss := sum_amount SELL (sim_trades st) in
  let sb_amt := sum_amount BUY (sim_trades st) in
  mkState (sim_trades st) (sim_futures_pnl st) (sim_start_bal st)
          (sb + ed - ew + ss - sb_amt + manual_pnl_sum)
          (sim_ext_dep st) (sim_ext_wd st) (sim_manual_pnl st) (sim_init_spot st)
          ss sb_amt
          (new_sell_input st) (new_sell_pnl st) (new_buy_input st)
          (new_futures_pnl_input st).

Definition add_sell_callback (st : session_state) : Py.outcome * session_state :=
  let amt := new_sell_input st in
  let pnl := new_sell_pnl st in
  if Py.ltb 0 amt then
    (Py.Returned,
     recalc_balance (set_sim_trades (sim_trades st ++ [mkTrade SELL amt pnl]) st))
  else (Py.Returned, st).

Definition add_buy_callback (st : session_state) : Py.outcome * session_state :=
  let amt := new_buy_input st in
  if Py.ltb 0 amt then
    (Py.Returned,
     recalc_balance (set_sim_trades (sim_trades st ++ [mkTrade BUY amt 0]) st))
  else (Py.Returned, st).

Definition del_trade_callback (idx : Z) (st : session_state)
  : Py.outcome * session_state :=
  match Py.pop (sim_trades st) idx with
  | None => (Py.Raised Py.IndexError, st)
  | Some (_, rest) => (Py.Returned, recalc_balance (set_sim_trades rest st))
  end.

Definition add_futures_pnl_callback (st : session_state)
  : Py.outcome * session_state :=
  let pnl := new_futures_pnl_input st in
  if negb (Qeq_bool pnl 0) then
    (Py.Returned,
     recalc_balance (set_sim_futures_pnl (sim_futures_pnl st ++ [pnl]) st))
  else (Py.Returned, st).

Definition del_futures_pnl_callback (idx : Z) (st : session_state)
  : Py.outcome * session_state :=
  match Py.pop (sim_futures_pnl st) idx with
  | None => (Py.Raised Py.IndexError, st)
  | Some (_, rest) => (Py.Returned, recalc_balance (set_sim_futures_pnl rest st))
  end.

Definition reset_trades_callback (st : session_state)
  : Py.outcome * session_state :=
  (Py.Returned,
   recalc_balance
     (mkState [] [] 0 0 0 0 0 0 (sim_spot_sell st) (sim_spot_buy st)
              (new_sell_input st) (new_sell_pnl st) (new_buy_input st)
              (new_futures_pnl_input st))).

(** ** The script body: totals, spot balance, high-water mark, ROI *)

Definition val_start_bal (st : session_state) : Q := sim_start_bal st.
Definition val_end_bal (st : session_state) : Q := sim_end_bal st.
Definition val_external_dep (st : session_state) : Q := sim_ext_dep st.
Definition val_external_wd (st : session_state) : Q := sim_ext_wd st.

(** The spot totals shown in the form: summed from the ledger for OKX, and
    [0.0] in the other branch. *)
Definition val_spot_sell (mode : exchange_mode) (st : session_state) : Q :=
  if startswith_OKX mode then sum_amount SELL (sim_trades st) else 0.

Definition val_spot_buy (mode : exchange_mode) (st : session_state) : Q :=
  if startswith_OKX mode then sum_amount BUY (sim_trades st) else 0.

Definition val_initial_spot (mode : exchange_mode) (st : session_state) : Q :=
  if startswith_OKX mode then sim_init_spot st else 0.

(** One round of the loop that replays the ledger on the spot balance. *)
Definition spot_bal_step (calc_spot_bal : Q) (t : trade) : Q :=
  match ttype t with
  | BUY => calc_spot_bal + amount t
  | SELL =>
      let sell_amt := amount t in
      let cost_basis := sell_amt - pnl t in
      calc_spot_bal - cost_basis
  end.

Definition calc_spot_bal (curr_init_spot : Q) (trades : list trade) : Q :=
  fold_left spot_bal_step trades curr_init_spot.

(** [val_current_spot] exists only in the OKX branch. *)
Definition val_current_spot (mode : exchange_mode) (st : session_state)
  : option Q :=
  if startswith_OKX mode
  then Some (Py.max 0 (calc_spot_bal (sim_init_spot st) (sim_trades st)))
  else None.

(** The three running variables of the high-water-mark loop. *)
Record hwm_vars : Set := mkHwm {
  cum_sell : Q;
  cum_buy : Q;
  max_val : Q
}.

(** One round of the high-water-mark loop (the debug log is display only). *)
Definition hwm_step (initial_spot : Q) (v : hwm_vars) (t : trade) : hwm_vars :=
  let cum_sell' :=
    match ttype t with SELL => cum_sell v + amount t | BUY => cum_sell v end in
  let cum_buy' :=
    match ttype t with SELL => cum_buy v | BUY => cum_buy v + amount t end in
  let deduction := Py.min cum_sell' initial_spot in
  let flow := (cum_sell' - cum_buy') - deduction in
  mkHwm cum_sell' cum_buy' (if Py.ltb (max_val v) flow then flow else max_val v).

Definition hwm_loop (initial_spot : Q) (trades : list trade) : hwm_vars :=
  fold_left (hwm_step initial_spot) trades (mkHwm 0 0 0).

Definition hwm_spot_flow (mode : exchange_mode) (st : session_state) : Q :=
  if startswith_OKX mode
  then max_val (hwm_loop (val_initial_spot mode st) (sim_trades st))
  else 0.

(** [use_hwm = True] in the source. *)
Definition use_hwm : bool := true.

Definition total_deposit (mode : exchange_mode) (st : session_state) : Q :=
  val_external_dep st + val_spot_sell mode st.

Definition total_withdrawal (mode : exchange_mode) (st : session_state) : Q :=
  val_external_wd st + val_spot_buy mode st.

Definition net_spot_flow (mode : exchange_mode) (st : session_state) : Q :=
  let net_spot_flow_raw := val_spot_sell mode st - val_spot_buy mode st in
  let spot_deduction := Py.min (val_spot_sell mode st) (val_initial_spot mode st) in
  net_spot_flow_raw - spot_deduction.

Definition principal_adj (mode : exchange_mode) (st : session_state) : Q :=
  if startswith_OKX mode then
    if use_hwm then val_external_dep st + Py.max 0 (hwm_spot_flow mode st)
    else val_external_dep st + Py.max 0 (net_spot_flow mode st)
  else val_external_dep st.

Definition raw_pnl (st : session_state) : Q := val_end_bal st - val_start_bal st.

Definition adjusted_pnl (mode : exchange_mode) (st : session_state) : Q :=
  raw_pnl st - total_deposit mode st + total_withdrawal mode st.

Definition denominator (mode : exchange_mode) (st : session_state) : Q :=
  val_start_bal st + principal_adj mode st.

(** [roi]: the division is evaluated only when the denominator is positive. *)
Definition roi (mode : exchange_mode) (st : session_state) : Py.exn + Q :=
  if Py.ltb 0 (denominator mode st) then
    match Py.truediv (adjusted_pnl mode st) (denominator mode st) with
    | inl e => inl e
    | inr q => inr (q * 100)
    end
  else inr 0.

(** ** The specification's wording, to compare the code with *)

Module Spec.

(** Sum of the amounts of the events of one kind. *)
Fixpoint total (s : side) (events : list trade) : Q :=
  match events with
  | [] => 0
  | e :: rest =>
      (if side_eqb (ttype e) s then amount e else 0) + total s rest
  end.

(** Sum over the SELL events of [amount - realizedPnl]. *)
Fixpoint total_cost_basis (events : list trade) : Q :=
  match events with
  | [] => 0
  | e :: rest =>
      (match ttype e with SELL => amount e - pnl e | BUY => 0 end)
      + total_cost_basis rest
  end.

(** The flow after a sequence of events:
    [(cumSell - cumBuy) - min(cumSell, initialSpotBalance)]. *)
Definition flow (initialSpotBalance : Q) (events : list trade) : Q :=
  (total SELL events - total BUY events)
  - Qmin (total SELL events) initialSpotBalance.

(** The prefixes of length [1 .. length events]. *)
Definition nonempty_prefixes (events : list trade) : list (list trade) :=
  map (fun k => firstn k events) (seq 1 (length events)).

(** The maximum of 0 and the flow over all non-empty prefixes. *)
Definition hwm (initialSpotBalance : Q) (events : list trade) : Q :=
  fold_right Qmax 0 (map (flow initialSpotBalance) (nonempty_prefixes events)).

End Spec.

(** ** The spot balance in binary64 *)

(** The replay of the ledger on the spot balance (lines 1115-1125) over
    binary64 numbers: every [+=] and [-=] rounds to the nearest float. *)
Module F64.

(** A trade record with float entries. *)
Record trade : Set := mkTrade {
  ttype : side;
  amount : float;
  pnl : float
}.

(** [max(a, b)] on floats: the first argument unless the second is greater;
    no comparison with a NaN holds, so [max(0.0, nan)] is [0.0]. *)
Definition max (a b : float) : float := if (a <? b)%float then b else a.

Definition spot_bal_step (calc_spot_bal : float) (t : trade) : float :=
  match ttype t with
  | BUY => (calc_spot_bal + amount t)%float
  | SELL =>
      let sell_amt := amount t in
      let cost_basis := (sell_amt - pnl t)%float in
      (calc_spot_bal - cost_basis)%float
  end.

Definition calc_spot_bal (curr_init_spot : float) (trades : list trade) : float :=
  fold_left spot_bal_step trades curr_init_spot.

Definition val_current_spot (curr_init_spot : float) (trades : list trade)
  : float :=
  max 0 (calc_spot_bal curr_init_spot trades).

(** The sum of a list of floats, from 0 and from left to right. *)
Definition sum_left (xs : list float) : float :=
  fold_left PrimFloat.add xs 0%float.

(** The closed form of the specification, evaluated in binary64:
    max(0, initial + sum of BUY amounts - sum over SELL events of
    (amount - realizedPnl)). *)
Definition closed_form (initialSpotBalance : float) (events : list trade)
  : float :=
  max 0
      (initialSpotBalance
       + sum_left (map amount (filter (fun e => side_eqb (ttype e) BUY) events))
       - sum_left (map (fun e => (amount e - pnl e)%float)
                       (filter (fun e => side_eqb (ttype e) SELL) events)))%float.

(** From 1e16, two buys of 1 and a sell of 1e16: every amount is a whole
    number that binary64 holds exactly. *)
Definition large_ledger : list trade :=
  [mkTrade BUY 1 0; mkTrade BUY 1 0; mkTrade SELL 1e16 0].

(** From 0.1, a sell of 0.3 and a buy of 0.2; the literals are the floats
    nearest to 0.1, 0.3 and 0.2. *)
Definition tenth : float := 0x1.999999999999ap-4.

Definition decimal_ledger : list trade :=
  [mkTrade SELL 0x1.3333333333333p-2 0; mkTrade BUY 0x1.999999999999ap-3 0].

End F64.

(** The ledger [F64.large_ledger] with its amounts as rationals. *)
Definition large_ledger_exact : list trade :=
  [mkTrade BUY 1 0; mkTrade BUY 1 0; mkTrade SELL 10000000000000000 0].

(** ** The buttons of the ledger, and some session states *)

(** The ledger buttons: each runs one callback. *)
Inductive ledger_button : Set :=
| AddSell
| AddBuy
| DelTrade (idx : Z)
| AddFuturesPnl
| DelFuturesPnl (idx : Z).

Definition on_click (b : ledger_button) (st : session_state)
  : Py.outcome * session_state :=
  match b with
  | AddSell => add_sell_callback st
  | AddBuy => add_buy_callback st
  | DelTrade idx => del_trade_callback idx st
  | AddFuturesPnl => add_futures_pnl_callback st
  | DelFuturesPnl idx => del_futures_pnl_callback idx st
  end.

(** The list left when the element at position [i] is taken out. *)
Definition remove_at {A : Type} (i : nat) (xs : list A) : list A :=
  firstn i xs ++ skipn (S i) xs.

(** A fresh session: empty ledgers, every number 0. *)
Definition fresh_session : session_state :=
  mkState [] [] 0 0 0 0 0 0 0 0 0 0 0 0.

(** A fresh session in which 5 was typed into the "sell amount" box. *)
Definition sell_5_typed : session_state :=
  mkState [] [] 0 0 0 0 0 0 0 0 5 0 0 0.



(** Initial spot 20, a ledger [SELL 50; BUY 5], and 4 typed into the "buy
    amount" box. *)
Definition buy_4_typed : session_state :=
  mkState [mkTrade SELL 50 0; mkTrade BUY 5 0] [] 0 0 0 0 0 20 0 0 0 0 4 0.

(** A ledger of three trades, and a list of two futures PnL entries. *)
Definition three_trades : session_state :=
  mkState [mkTrade BUY 30 0; mkTrade SELL 10 0; mkTrade SELL 50 5] [7; -2]
          100 0 0 0 0 20 0 0 0 0 0 3.

(** ** More of the simulator *)


(** A trade record with another ['pnl'] entry. *)
Definition with_pnl (f : trade -> Q) (t : trade) : trade :=
  mkTrade (ttype t) (amount t) (f t).

(** What the "add" callbacks let into the ledgers: a trade has a strictly
    positive amount, a BUY carries the ['pnl'] entry [0.0], a futures PnL
    entry is not zero. *)
Definition trade_ok (t : trade) : Prop :=
  0 < amount t /\ (ttype t = BUY -> pnl t = 0).

Definition ledger_ok (st : session_state) : Prop :=
  Forall trade_ok (sim_trades st) /\
  Forall (fun p => ~ p == 0) (sim_futures_pnl st).

(** ** The exchange responses (Coinmap Simulator, "fetch" part) *)

#[local] Set Warnings "-register-all".

(** A value as [response.json()] or [response.text] gives it. *)
Inductive pyval : Type :=
| VNone
| VBool (b : bool)
| VNum (q : Q)
| VStr (s : string)
| VList (xs : list pyval)
| VDict (kv : list (string * pyval)).

(** The entries of a [VDict] are looked up from the front; a dict has each
    key once. *)

(** Python's truth value: [None], [False], zero, and the empty string, list
    and dict are false. *)
Definition truthy (v : pyval) : bool :=
  match v with
  | VNone => false
  | VBool b => b
  | VNum q => negb (Qeq_bool q 0)
  | VStr s => negb (String.eqb s EmptyString)
  | VList xs => match xs with [] => false | _ :: _ => true end
  | VDict kv => match kv with [] => false | _ :: _ => true end
  end.

(** [d.get(k)] on the entries of a dict; [None] when the key is absent. *)
Fixpoint dict_get (kv : list (string * pyval)) (k : string) : option pyval :=
  match kv with
  | [] => None
  | (k', v) :: rest => if String.eqb k' k then Some v else dict_get rest k
  end.

(** [k in d]. *)
Definition dict_has (kv : list (string * pyval)) (k : string) : bool :=
  match dict_get kv k with Some _ => true | None => false end.

(** [d.get(k) != s] for a string literal [s]. *)
Definition get_differs (kv : list (string * pyval)) (k s : string) : bool :=
  match dict_get kv k with
  | Some (VStr s') => negb (String.eqb s' s)
  | _ => true
  end.

(** The error test on a response (lines 407-418); the first argument is
    [scenario['exchange']]. *)
Definition is_error (exchange : exchange_mode) (raw_res : pyval) : bool :=
  if negb (truthy raw_res) then true
  else
    match raw_res with
    | VDict kv =>
        match exchange with
        | OKX => if get_differs kv "code" "0" then true else false
        | Binance =>
            if (dict_has kv "code" || dict_has kv "msg")
               && negb (dict_has kv "totalWalletBalance")
            then (if dict_has kv "code" then true else false)
            else false
        end
    | _ => false
    end.

(** How the fetch step of an OKX scenario ends: the script stops with the
    API error shown, or [raw_res.get('data', [])] runs, which raises
    AttributeError on a value that is not a dict. *)
Inductive fetched : Type :=
| Stopped
| AttributeError
| RawData (raw_data : pyval).

Definition okx_fetch (raw_res : pyval) : fetched :=
  if is_error OKX raw_res then Stopped
  else
    match raw_res with
    | VDict kv =>
        RawData (match dict_get kv "data" with Some v => v | None => VList [] end)
    | _ => AttributeError
    end.

(** What [send_request] returns when the request itself fails:
    [{"error": str(e)}]. *)
Definition client_failure (msg : string) : pyval :=
  VDict [("error"%string, VStr msg)].

(** ** Position rows *)

(** The ROI of one open Binance position (lines 795-809), on the row's
    entries as [float(...)] gives them: direction and ROI in percent. *)
Definition binance_position_roi (amt entry_price unrealized_profit leverage : Q)
  : Py.exn + (string * Q) :=
  let side := if Py.ltb 0 amt then "LONG"%string else "SHORT"%string in
  match Py.truediv (entry_price * Qabs amt) leverage with
  | inl e => inl e
  | inr margin =>
      if Py.ltb 0 margin then
        match Py.truediv unrealized_profit margin with
        | inl e => inl e
        | inr q => inr (side, q * 100)
        end
      else inr (side, 0)
  end.

(** Direction and real quantity of one OKX position (lines 590-613).
    [upper] stands for [str.upper]; [ct_val] is [inst_map.get(inst_id, 0.0)]
    with [inst_map] the contract values that could be fetched. *)
Definition okx_ct_val (inst_map : list (string * Q)) (inst_id : string) : Q :=
  match find (fun kv => String.eqb (fst kv) inst_id) inst_map with
  | Some kv => snd kv
  | None => 0
  end.

Definition okx_real_qty (inst_map : list (string * Q)) (inst_id : string)
  (pos_sz : Q) : Q :=
  Qabs pos_sz * okx_ct_val inst_map inst_id.

Definition okx_final_side (upper : string -> string) (raw_side : string)
  (pos_sz : Q) : string :=
  if String.eqb raw_side "net" then
    if Py.ltb 0 pos_sz then "LONG"%string
    else if Py.ltb pos_sz 0 then "SHORT"%string
    else "FLAT"%string
  else if String.eqb raw_side "long" then "LONG"%string
  else if String.eqb raw_side "short" then "SHORT"%string
  else upper raw_side.

(** ** Facts about the Python primitives *)

Lemma ltb_true_iff (a b : Q) : Py.ltb a b = true <-> a < b.
Proof.
  unfold Py.ltb. rewrite negb_true_iff.
  destruct (Qle_bool b a) eqn:E.
  - apply Qle_bool_iff in E. split; [discriminate | lra].
  - split; [intros _ | reflexivity].
    apply Qnot_le_lt. intro H. apply Qle_bool_iff in H. congruence.
Qed.

Lemma ltb_false_iff (a b : Q) : Py.ltb a b = false <-> b <= a.
Proof.
  destruct (Py.ltb a b) eqn:E.
  - apply ltb_true_iff in E. split; [discriminate | lra].
  - split; [intros _ | reflexivity].
    apply Qnot_lt_le. intro H. apply ltb_true_iff in H. congruence.
Qed.

Lemma max_cases (a b : Q) :
  (a < b /\ Py.max a b = b) \/ (b <= a /\ Py.max a b = a).
Proof.
  unfold Py.max. destruct (Py.ltb a b) eqn:E.
  - left. split; [now apply ltb_true_iff | reflexivity].
  - right. split; [now apply ltb_false_iff | reflexivity].
Qed.

Lemma min_cases (a b : Q) :
  (b < a /\ Py.min a b = b) \/ (a <= b /\ Py.min a b = a).
Proof.
  unfold Py.min. destruct (Py.ltb b a) eqn:E.
  - left. split; [now apply ltb_true_iff | reflexivity].
  - right. split; [now apply ltb_false_iff | reflexivity].
Qed.

Lemma max_Qmax (a b : Q) : Py.max a b == Qmax a b.
Proof.
  destruct (max_cases a b) as [[H ->] | [H ->]];
    destruct (Q.max_spec a b) as [[H' E] | [H' E]]; rewrite E; lra.
Qed.

Lemma min_Qmin (a b : Q) : Py.min a b == Qmin a b.
Proof.
  destruct (min_cases a b) as [[H ->] | [H ->]];
    destruct (Q.min_spec a b) as [[H' E] | [H' E]]; rewrite E; lra.
Qed.

Lemma sum_snoc (xs : list Q) (x : Q) : Py.sum (xs ++ [x]) = Py.sum xs + x.
Proof. unfold Py.sum. now rewrite fold_left_app. Qed.




Lemma total_snoc (s : side) (events : list trade) (e : trade) :
  Spec.total s (events ++ [e])
  == Spec.total s events + (if side_eqb (ttype e) s then amount e else 0).
Proof.
  induction events as [| x xs IH]; simpl.
  - lra.
  - rewrite IH. lra.
Qed.

(** ** The high-water-mark loop *)

Lemma hwm_loop_snoc (i : Q) (p : list trade) (e : trade) :
  hwm_loop i (p ++ [e]) = hwm_step i (hwm_loop i p) e.
Proof. unfold hwm_loop. now rewrite fold_left_app. Qed.

Lemma nonempty_prefixes_snoc (p : list trade) (e : trade) :
  Spec.nonempty_prefixes (p ++ [e]) = Spec.nonempty_prefixes p ++ [p ++ [e]].
Proof.
  unfold Spec.nonempty_prefixes.
  rewrite length_app, Nat.add_comm. cbn [length Nat.add].
  rewrite seq_S, map_app. cbn [map]. f_equal.
  - apply map_ext_in. intros k Hk. apply in_seq in Hk.
    rewrite firstn_app.
    replace (k - length p)%nat with 0%nat by lia.
    cbn [firstn]. now rewrite app_nil_r.
  - f_equal. apply firstn_all2. rewrite length_app. cbn [length]. lia.
Qed.

Lemma fold_right_Qmax_snoc (xs : list Q) (x : Q) :
  fold_right Qmax 0 (xs ++ [x]) == Qmax (fold_right Qmax 0 xs) x.
Proof.
  induction xs as [| y ys IH]; cbn [app fold_right].
  - apply Q.max_comm.
  - rewrite IH. apply Q.max_assoc.
Qed.

Lemma spec_hwm_snoc (i : Q) (p : list trade) (e : trade) :
  Spec.hwm i (p ++ [e]) == Qmax (Spec.hwm i p) (Spec.flow i (p ++ [e])).
Proof.
  unfold Spec.hwm. rewrite nonempty_prefixes_snoc, map_app. cbn [map].
  apply fold_right_Qmax_snoc.
Qed.

(** What the maximum over a list, started from 0, is. *)
Lemma fold_right_Qmax_spec (xs : list Q) :
  let m := fold_right Qmax 0 xs in
  0 <= m /\ (forall x, In x xs -> x <= m) /\ (m == 0 \/ exists x, In x xs /\ m == x).
Proof.
  induction xs as [| y ys (H0 & Hub & Hat)]; cbn [fold_right].
  - split; [lra |]. split; [intros x [] | now left].
  - cbn zeta. set (m := fold_right Qmax 0 ys) in *.
    destruct (Q.max_spec y m) as [[Hlt E] | [Hle E]].
    + split; [lra |]. split.
      * intros x [<- | Hx]; [lra |]. specialize (Hub x Hx). lra.
      * destruct Hat as [Hz | (x & Hx & Hm)].
        -- left. lra.
        -- right. exists x. split; [now right | lra].
    + split; [lra |]. split.
      * intros x [<- | Hx]; [lra |]. specialize (Hub x Hx). lra.
      * right. exists y. split; [now left | exact E].
Qed.

(** The loop's three variables after a prefix [p] of the ledger. *)
Lemma hwm_loop_invariant (i : Q) (p : list trade) :
  cum_sell (hwm_loop i p) == Spec.total SELL p /\
  cum_buy (hwm_loop i p) == Spec.total BUY p /\
  max_val (hwm_loop i p) == Spec.hwm i p.
Proof.
  induction p as [| e p (IHs & IHb & IHm)] using rev_ind.
  - cbn. repeat split; reflexivity.
  - rewrite hwm_loop_snoc.
    assert (Hs : cum_sell (hwm_step i (hwm_loop i p) e) == Spec.total SELL (p ++ [e])).
    { rewrite total_snoc. unfold hwm_step. cbn [cum_sell].
      destruct (ttype e); cbn [side_eqb]; rewrite IHs; lra. }
    assert (Hb : cum_buy (hwm_step i (hwm_loop i p) e) == Spec.total BUY (p ++ [e])).
    { rewrite total_snoc. unfold hwm_step. cbn [cum_buy].
      destruct (ttype e); cbn [side_eqb]; rewrite IHb; lra. }
    split; [exact Hs |]. split; [exact Hb |].
    rewrite spec_hwm_snoc. unfold Spec.flow. rewrite <- Hs, <- Hb, <- IHm.
    unfold hwm_step. cbn [cum_sell cum_buy max_val].
    set (s := match ttype e with SELL => _ | BUY => _ end).
    set (b := match ttype e with SELL => _ | BUY => _ end).
    assert (Hf : s - b - Py.min s i == s - b - Qmin s i)
      by (generalize (min_Qmin s i); lra).
    fold (Py.max (max_val (hwm_loop i p)) (s - b - Py.min s i)).
    rewrite max_Qmax, Hf. reflexivity.
Qed.

(** The running maximum after one more event. *)
Lemma hwm_loop_max_snoc (i : Q) (p : list trade) (e : trade) :
  max_val (hwm_loop i (p ++ [e]))
  == Qmax (max_val (hwm_loop i p)) (Spec.flow i (p ++ [e])).
Proof.
  destruct (hwm_loop_invariant i (p ++ [e])) as (_ & _ & ->).
  destruct (hwm_loop_invariant i p) as (_ & _ & ->).
  apply spec_hwm_snoc.
Qed.

(** ** [list.pop] *)

Lemma pop_in_range {A : Type} (xs : list A) (i : Z) :
  (0 <= i < Z.of_nat (length xs))%Z ->
  exists x, nth_error xs (Z.to_nat i) = Some x /\
            Py.pop xs i = Some (x, remove_at (Z.to_nat i) xs).
Proof.
  intros Hi. unfold Py.pop.
  destruct (Z.ltb_spec i 0); [lia |].
  destruct (Z.ltb_spec i 0); [lia |].
  destruct (Z.leb_spec (Z.of_nat (length xs)) i); [lia |]. cbn [orb].
  destruct (nth_error xs (Z.to_nat i)) as [x |] eqn:E.
  - exists x. split; reflexivity.
  - apply nth_error_None in E. lia.
Qed.

Lemma pop_from_end {A : Type} (xs : list A) (i : Z) :
  (- Z.of_nat (length xs) <= i <= -1)%Z ->
  Py.pop xs i = Py.pop xs (Z.of_nat (length xs) + i).
Proof.
  intros Hi. unfold Py.pop.
  destruct (Z.ltb_spec i 0); [| lia].
  destruct (Z.ltb_spec (Z.of_nat (length xs) + i) 0); [lia |].
  now rewrite (Z.add_comm i).
Qed.

Lemma pop_too_large {A : Type} (xs : list A) (i : Z) :
  (Z.of_nat (length xs) <= i)%Z -> Py.pop xs i = None.
Proof.
  intros Hi. unfold Py.pop.
  destruct (Z.ltb_spec i 0); [lia |].
  destruct (Z.ltb_spec i 0); [lia |].
  destruct (Z.leb_spec (Z.of_nat (length xs)) i); [reflexivity | lia].
Qed.

Lemma pop_too_small {A : Type} (xs : list A) (i : Z) :
  (i < - Z.of_nat (length xs))%Z -> Py.pop xs i = None.
Proof.
  intros Hi. unfold Py.pop.
  destruct (Z.ltb_spec i 0); [| lia].
  destruct (Z.ltb_spec (i + Z.of_nat (length xs)) 0); [reflexivity | lia].
Qed.

(** [remove_at i] drops position [i] and keeps everything else in place. *)
Lemma remove_at_spec {A : Type} (i : nat) (xs : list A) :
  (i < length xs)%nat ->
  S (length (remove_at i xs)) = length xs /\
  forall j, nth_error (remove_at i xs) j
            = if (j <? i)%nat then nth_error xs j else nth_error xs (S j).
Proof.
  intros Hi. unfold remove_at. split.
  - rewrite length_app, length_firstn, length_skipn. lia.
  - intros j. destruct (Nat.ltb_spec j i) as [Hj | Hj].
    + rewrite nth_error_app1 by (rewrite length_firstn; lia).
      rewrite nth_error_firstn.
      destruct (Nat.ltb_spec j i); [reflexivity | lia].
    + rewrite nth_error_app2 by (rewrite length_firstn; lia).
      rewrite length_firstn, nth_error_skipn. f_equal. lia.
Qed.

Lemma remove_at_last {A : Type} (p : list A) (x : A) :
  remove_at (length p) (p ++ [x]) = p.
Proof.
  unfold remove_at.
  rewrite firstn_app, firstn_all, Nat.sub_diag. cbn [firstn].
  rewrite skipn_all2 by (rewrite length_app; cbn [length]; lia).
  now rewrite !app_nil_r.
Qed.


(** ** High-water mark *)


(** C6.  For a fixed initial spot balance the high-water mark never goes
    down when an event is appended to the ledger:
    hwmSpotFlow(s ++ [e]) >= hwmSpotFlow(s), for the loop and for the value
    the script computes from the session in either mode. *)
Theorem hwm_spot_flow_monotone_under_append
  (mode : exchange_mode) (st : session_state) (e : trade) :
  max_val (hwm_loop (sim_init_spot st) (sim_trades st))
    <= max_val (hwm_loop (sim_init_spot st) (sim_trades st ++ [e])) /\
  hwm_spot_flow mode st
    <= hwm_spot_flow mode (set_sim_trades (sim_trades st ++ [e]) st).
Proof.
  assert (H : max_val (hwm_loop (sim_init_spot st) (sim_trades st))
              <= max_val (hwm_loop (sim_init_spot st) (sim_trades st ++ [e]))).
  { rewrite hwm_loop_max_snoc. apply Q.le_max_l. }
  split; [exact H |].
  destruct mode; unfold hwm_spot_flow, val_initial_spot; cbn.
  - exact H.
  - lra.
Qed.

(** ** Spot balance *)

Lemma float_ltb_leb (a b : float) :
  (a <? b)%float = true -> (a <=? b)%float = true.
Proof.
  rewrite ltb_spec, leb_spec. unfold SFltb, SFleb.
  destruct (SFcompare (Prim2SF a) (Prim2SF b)) as [[| |] |]; congruence.
Qed.

Lemma firstn_succ_snoc {A : Type} (l : list A) (k : nat) (e : A) :
  nth_error l k = Some e -> firstn (S k) l = firstn k l ++ [e].
Proof.
  revert k. induction l as [| x l IH]; intros [| k] H; try discriminate.
  - injection H as ->. reflexivity.
  - cbn [firstn app]. f_equal. now apply IH.
Qed.

Lemma f64_calc_spot_bal_snoc (init : float) (p : list F64.trade)
  (e : F64.trade) :
  F64.calc_spot_bal init (p ++ [e])
  = F64.spot_bal_step (F64.calc_spot_bal init p) e.
Proof. unfold F64.calc_spot_bal. now rewrite fold_left_app. Qed.

(** C2, as the code has it.  The current spot balance is max(0, b), where b
    is what the replay of the ledger gives in binary64: b starts at the
    initial balance and each event, in order, takes the balance before it to
    balance + amount for a BUY and to balance - (amount - realizedPnl) for a
    SELL, every operation rounded.  The floor at zero is applied once, to
    the balance after the last event, never to a balance on the way, and the
    result is never below 0.  An initial balance of 30 with the one event
    SELL{amount=10, realizedPnl=-20} gives 0, and SELL 10 then BUY 4 from 0
    gives max(0, -6) = 0 and not 4. *)
Theorem spot_balance_is_rounded_replay (init : float)
  (trades : list F64.trade) :
  F64.val_current_spot init trades
  = F64.max 0 (F64.calc_spot_bal init trades) /\
  F64.calc_spot_bal init [] = init /\
  (forall k e,
      nth_error trades k = Some e ->
      F64.calc_spot_bal init (firstn (S k) trades)
      = match F64.ttype e with
        | BUY => F64.calc_spot_bal init (firstn k trades) + F64.amount e
        | SELL =>
            F64.calc_spot_bal init (firstn k trades)
            - (F64.amount e - F64.pnl e)
        end%float) /\
  F64.calc_spot_bal init (firstn (length trades) trades)
  = F64.calc_spot_bal init trades /\
  (0 <=? F64.val_current_spot init trades)%float = true /\
  (init = 30%float -> trades = [F64.mkTrade SELL 10 (-20)] ->
     F64.val_current_spot init trades = 0%float) /\
  (init = 0%float ->
   trades = [F64.mkTrade SELL 10 0; F64.mkTrade BUY 4 0] ->
     F64.val_current_spot init trades = 0%float).
Proof.
  split; [reflexivity |]. split; [reflexivity |]. split; [| split; [| split]].
  - intros k e H.
    rewrite (firstn_succ_snoc _ _ _ H), f64_calc_spot_bal_snoc.
    unfold F64.spot_bal_step. now destruct (F64.ttype e).
  - now rewrite firstn_all.
  - unfold F64.val_current_spot, F64.max.
    destruct (0 <? F64.calc_spot_bal init trades)%float eqn:E.
    + now apply float_ltb_leb.
    + reflexivity.
  - split; intros -> ->; vm_compute; reflexivity.
Qed.

Lemma spot_balance_is_rounded_replay_witness :
  F64.val_current_spot 30 [F64.mkTrade SELL 10 (-20)] = 0%float.
Proof.
  exact (proj1 (proj2 (proj2 (proj2 (proj2 (proj2
           (spot_balance_is_rounded_replay 30 [F64.mkTrade SELL 10 (-20)]))))))
           eq_refl eq_refl).
Defined.

(** C2 as it is worded fails on the floats the code computes with.  From
    1e16, two buys of 1 leave the balance at 1e16 (1e16 + 1 rounds back to
    1e16), and the sell of 1e16 brings it to 0, while initial + sum of the
    buys - sum of the sells is 2, in binary64 and in exact arithmetic
    alike.  From 0.1, a sell of 0.3 and a buy of 0.2 give a balance that is
    smaller than the closed form evaluated on the same floats. *)
Lemma spot_balance_replay_is_not_the_closed_form :
  F64.val_current_spot 1e16 F64.large_ledger = 0%float /\
  F64.closed_form 1e16 F64.large_ledger = 2%float /\
  F64.val_current_spot 1e16 F64.large_ledger
  <> F64.closed_form 1e16 F64.large_ledger /\
  Qmax 0 (10000000000000000 + Spec.total BUY large_ledger_exact
          - Spec.total_cost_basis large_ledger_exact) == 2 /\
  (F64.val_current_spot F64.tenth F64.decimal_ledger
   <? F64.closed_form F64.tenth F64.decimal_ledger)%float = true /\
  F64.val_current_spot F64.tenth F64.decimal_ledger
  <> F64.closed_form F64.tenth F64.decimal_ledger.
Proof.
  split; [vm_compute; reflexivity |].
  split; [vm_compute; reflexivity |].
  split.
  { intros H. apply (f_equal (fun z => (z <? 1)%float)) in H.
    vm_compute in H. discriminate H. }
  split; [vm_compute; reflexivity |].
  split; [vm_compute; reflexivity |].
  intros H.
  apply (f_equal
           (fun z => (z <? F64.closed_form F64.tenth F64.decimal_ledger)%float))
    in H.
  vm_compute in H. discriminate H.
Qed.

(** ** Principal adjustment, adjusted PnL and ROI *)





(** ** Ledger store *)

Lemma del_trade_in_range (j : Z) (st : session_state) :
  (0 <= j < Z.of_nat (length (sim_trades st)))%Z ->
  del_trade_callback j st
  = (Py.Returned,
     recalc_balance (set_sim_trades (remove_at (Z.to_nat j) (sim_trades st)) st)).
Proof.
  intros Hj. unfold del_trade_callback.
  destruct (pop_in_range (sim_trades st) j Hj) as (x & _ & ->). reflexivity.
Qed.

Lemma del_futures_pnl_in_range (j : Z) (st : session_state) :
  (0 <= j < Z.of_nat (length (sim_futures_pnl st)))%Z ->
  del_futures_pnl_callback j st
  = (Py.Returned,
     recalc_balance
       (set_sim_futures_pnl (remove_at (Z.to_nat j) (sim_futures_pnl st)) st)).
Proof.
  intros Hj. unfold del_futures_pnl_callback.
  destruct (pop_in_range (sim_futures_pnl st) j Hj) as (x & _ & ->). reflexivity.
Qed.



(** C7, as the code has it.  The "add sell" and "add buy" buttons append
    only when the typed amount is strictly positive: then the event goes to
    the end of the spot ledger; for an amount of 0 (or below) the call
    returns normally, raises nothing and leaves the whole session as it
    was. *)
Theorem spot_append_needs_positive_amount (st : session_state) :
  (new_sell_input st <= 0 -> add_sell_callback st = (Py.Returned, st)) /\
  (new_buy_input st <= 0 -> add_buy_callback st = (Py.Returned, st)) /\
  (0 < new_sell_input st ->
     fst (add_sell_callback st) = Py.Returned /\
     sim_trades (snd (add_sell_callback st))
     = sim_trades st ++ [mkTrade SELL (new_sell_input st) (new_sell_pnl st)] /\
     sim_futures_pnl (snd (add_sell_callback st)) = sim_futures_pnl st) /\
  (0 < new_buy_input st ->
     fst (add_buy_callback st) = Py.Returned /\
     sim_trades (snd (add_buy_callback st))
     = sim_trades st ++ [mkTrade BUY (new_buy_input st) 0] /\
     sim_futures_pnl (snd (add_buy_callback st)) = sim_futures_pnl st).
Proof.
  unfold add_sell_callback, add_buy_callback.
  split; [| split; [| split]]; intros H.
  - apply ltb_false_iff in H. now rewrite H.
  - apply ltb_false_iff in H. now rewrite H.
  - apply ltb_true_iff in H. rewrite H. cbn. repeat split.
  - apply ltb_true_iff in H. rewrite H. cbn. repeat split.
Qed.

(** C7 as it is worded fails: in a fresh session, where both amount boxes
    hold 0, neither button appends a zero-amount event; the ledger stays
    empty. *)
Lemma zero_amount_spot_transfer_is_not_appended :
  new_sell_input fresh_session = 0 /\
  new_buy_input fresh_session = 0 /\
  add_sell_callback fresh_session = (Py.Returned, fresh_session) /\
  add_buy_callback fresh_session = (Py.Returned, fresh_session) /\
  sim_trades (snd (add_sell_callback fresh_session))
  <> sim_trades fresh_session ++ [mkTrade SELL 0 0] /\
  sim_trades (snd (add_buy_callback fresh_session))
  <> sim_trades fresh_session ++ [mkTrade BUY 0 0].
Proof.
  repeat split; cbn; discriminate.
Qed.

(** C8.  Deleting at an index greater than or equal to the length of the
    sequence raises IndexError and leaves the session, and so every value
    computed from it, unchanged; deleting at an index from 0 up to the
    length removes exactly that element: the sequence gets one shorter, the
    elements before the index stay where they were and those after it move
    up by one, and the other sequence is untouched.  This holds for the spot
    ledger and for the futures PnL list. *)
Theorem delete_by_index (idx : Z) (st : session_state) :
  ((Z.of_nat (length (sim_trades st)) <= idx)%Z ->
     del_trade_callback idx st = (Py.Raised Py.IndexError, st) /\
     forall mode,
       (val_current_spot mode (snd (del_trade_callback idx st)),
        hwm_spot_flow mode (snd (del_trade_callback idx st)),
        principal_adj mode (snd (del_trade_callback idx st)),
        adjusted_pnl mode (snd (del_trade_callback idx st)),
        roi mode (snd (del_trade_callback idx st)))
       = (val_current_spot mode st, hwm_spot_flow mode st,
          principal_adj mode st, adjusted_pnl mode st, roi mode st)) /\
  ((Z.of_nat (length (sim_futures_pnl st)) <= idx)%Z ->
     del_futures_pnl_callback idx st = (Py.Raised Py.IndexError, st)) /\
  ((0 <= idx < Z.of_nat (length (sim_trades st)))%Z ->
     fst (del_trade_callback idx st) = Py.Returned /\
     sim_trades (snd (del_trade_callback idx st))
     = remove_at (Z.to_nat idx) (sim_trades st) /\
     S (length (sim_trades (snd (del_trade_callback idx st))))
     = length (sim_trades st) /\
     (forall j,
         nth_error (sim_trades (snd (del_trade_callback idx st))) j
         = if (j <? Z.to_nat idx)%nat
           then nth_error (sim_trades st) j
           else nth_error (sim_trades st) (S j)) /\
     sim_futures_pnl (snd (del_trade_callback idx st)) = sim_futures_pnl st) /\
  ((0 <= idx < Z.of_nat (length (sim_futures_pnl st)))%Z ->
     fst (del_futures_pnl_callback idx st) = Py.Returned /\
     sim_futures_pnl (snd (del_futures_pnl_callback idx st))
     = remove_at (Z.to_nat idx) (sim_futures_pnl st) /\
     S (length (sim_futures_pnl (snd (del_futures_pnl_callback idx st))))
     = length (sim_futures_pnl st) /\
     (forall j,
         nth_error (sim_futures_pnl (snd (del_futures_pnl_callback idx st))) j
         = if (j <? Z.to_nat idx)%nat
           then nth_error (sim_futures_pnl st) j
           else nth_error (sim_futures_pnl st) (S j)) /\
     sim_trades (snd (del_futures_pnl_callback idx st)) = sim_trades st).
Proof.
  split; [| split; [| split]].
  - intros H.
    assert (E : del_trade_callback idx st = (Py.Raised Py.IndexError, st)).
    { unfold del_trade_callback. now rewrite pop_too_large. }
    split; [exact E |]. intros mode. now rewrite E.
  - intros H. unfold del_futures_pnl_callback. now rewrite pop_too_large.
  - intros H. rewrite (del_trade_in_range idx st H). cbn.
    destruct (remove_at_spec (Z.to_nat idx) (sim_trades st)) as (Hl & Hn);
      [lia |].
    repeat split; assumption.
  - intros H. rewrite (del_futures_pnl_in_range idx st H). cbn.
    destruct (remove_at_spec (Z.to_nat idx) (sim_futures_pnl st)) as (Hl & Hn);
      [lia |].
    repeat split; assumption.
Qed.

(** C9.  Adding a futures PnL entry of exactly 0 is refused as a whole: the
    call returns with the session unchanged; adding any other amount,
    positive or negative, puts it at the end of the futures PnL list and
    leaves the spot ledger alone. *)
Theorem futures_pnl_append (st : session_state) :
  (new_futures_pnl_input st == 0 ->
     add_futures_pnl_callback st = (Py.Returned, st)) /\
  (~ new_futures_pnl_input st == 0 ->
     fst (add_futures_pnl_callback st) = Py.Returned /\
     sim_futures_pnl (snd (add_futures_pnl_callback st))
     = sim_futures_pnl st ++ [new_futures_pnl_input st] /\
     sim_trades (snd (add_futures_pnl_callback st)) = sim_trades st).
Proof.
  unfold add_futures_pnl_callback.
  destruct (Qeq_bool (new_futures_pnl_input st) 0) eqn:E; cbn [negb].
  - apply Qeq_bool_eq in E. split; [reflexivity | intros H; contradiction].
  - split; [| intros _; cbn; repeat split].
    intros H. apply Qeq_eq_bool in H. congruence.
Qed.

(** C10.  The delete button's index follows Python's rule for negative
    numbers: on a spot ledger of length n, an index i with -n <= i <= -1
    removes the element at position n + i and raises nothing (so -1 removes
    the last element), and IndexError is raised, with the session unchanged,
    only when i < -n. *)
Theorem delete_by_negative_index (idx : Z) (st : session_state) :
  ((- Z.of_nat (length (sim_trades st)) <= idx <= -1)%Z ->
     fst (del_trade_callback idx st) = Py.Returned /\
     sim_trades (snd (del_trade_callback idx st))
     = remove_at (Z.to_nat (Z.of_nat (length (sim_trades st)) + idx))
                 (sim_trades st)) /\
  ((idx < - Z.of_nat (length (sim_trades st)))%Z ->
     del_trade_callback idx st = (Py.Raised Py.IndexError, st)) /\
  (forall p x,
      sim_trades st = p ++ [x] ->
      fst (del_trade_callback (-1) st) = Py.Returned /\
      sim_trades (snd (del_trade_callback (-1) st)) = p).
Proof.
  assert (Hneg : forall i,
             (- Z.of_nat (length (sim_trades st)) <= i <= -1)%Z ->
             del_trade_callback i st
             = (Py.Returned,
                recalc_balance
                  (set_sim_trades
                     (remove_at (Z.to_nat (Z.of_nat (length (sim_trades st)) + i))
                                (sim_trades st)) st))).
  { intros i Hi. rewrite <- del_trade_in_range by lia.
    unfold del_trade_callback. now rewrite pop_from_end. }
  split; [| split].
  - intros H. rewrite (Hneg idx H). split; reflexivity.
  - intros H. unfold del_trade_callback. now rewrite pop_too_small.
  - intros p x E.
    assert (Hl : length (sim_trades st) = S (length p))
      by (rewrite E, length_app; cbn [length]; lia).
    rewrite (Hneg (-1)%Z) by lia. cbn [fst snd]. split; [reflexivity |].
    cbn [recalc_balance set_sim_trades sim_trades].
    replace (Z.to_nat (Z.of_nat (length (sim_trades st)) + -1)) with (length p)
      by lia.
    rewrite E. apply remove_at_last.
Qed.

(** ** The theorems at concrete sessions *)


Lemma spot_append_needs_positive_amount_witness :
  new_sell_input fresh_session <= 0 /\
  add_sell_callback fresh_session = (Py.Returned, fresh_session) /\
  0 < new_sell_input sell_5_typed /\
  sim_trades (snd (add_sell_callback sell_5_typed)) = [mkTrade SELL 5 0].
Proof.
  assert (H0 : new_sell_input fresh_session <= 0) by (vm_compute; discriminate).
  assert (H5 : 0 < new_sell_input sell_5_typed) by reflexivity.
  destruct (spot_append_needs_positive_amount fresh_session) as (Hrej & _).
  destruct (spot_append_needs_positive_amount sell_5_typed) as (_ & _ & Hacc & _).
  split; [exact H0 |]. split; [exact (Hrej H0) |]. split; [exact H5 |].
  exact (proj1 (proj2 (Hacc H5))).
Defined.

Lemma delete_by_index_witness :
  (0 <= 1 < Z.of_nat (length (sim_trades three_trades)))%Z /\
  sim_trades (snd (del_trade_callback 1 three_trades))
  = [mkTrade BUY 30 0; mkTrade SELL 50 5] /\
  (Z.of_nat (length (sim_trades three_trades)) <= 3)%Z /\
  del_trade_callback 3 three_trades = (Py.Raised Py.IndexError, three_trades).
Proof.
  assert (Hin : (0 <= 1 < Z.of_nat (length (sim_trades three_trades)))%Z)
    by (cbn; lia).
  assert (Hout : (Z.of_nat (length (sim_trades three_trades)) <= 3)%Z)
    by (cbn; lia).
  destruct (delete_by_index 1 three_trades) as (_ & _ & Hdel & _).
  destruct (delete_by_index 3 three_trades) as (Hraise & _).
  split; [exact Hin |]. split; [| split; [exact Hout |]].
  - exact (proj1 (proj2 (Hdel Hin))).
  - exact (proj1 (Hraise Hout)).
Defined.

Lemma futures_pnl_append_witness :
  new_futures_pnl_input fresh_session == 0 /\
  add_futures_pnl_callback fresh_session = (Py.Returned, fresh_session) /\
  ~ new_futures_pnl_input three_trades == 0 /\
  sim_futures_pnl (snd (add_futures_pnl_callback three_trades)) = [7; -2; 3].
Proof.
  assert (H0 : new_futures_pnl_input fresh_session == 0) by reflexivity.
  assert (H3 : ~ new_futures_pnl_input three_trades == 0)
    by (vm_compute; discriminate).
  split; [exact H0 |].
  split; [exact (proj1 (futures_pnl_append fresh_session) H0) |].
  split; [exact H3 |].
  exact (proj1 (proj2 (proj2 (futures_pnl_append three_trades) H3))).
Defined.

Lemma delete_by_negative_index_witness :
  (- Z.of_nat (length (sim_trades three_trades)) <= -1 <= -1)%Z /\
  sim_trades (snd (del_trade_callback (-1) three_trades))
  = [mkTrade BUY 30 0; mkTrade SELL 10 0] /\
  (-4 < - Z.of_nat (length (sim_trades three_trades)))%Z /\
  del_trade_callback (-4) three_trades = (Py.Raised Py.IndexError, three_trades).
Proof.
  assert (Hin : (- Z.of_nat (length (sim_trades three_trades)) <= -1 <= -1)%Z)
    by (cbn; lia).
  assert (Hout : (-4 < - Z.of_nat (length (sim_trades three_trades)))%Z)
    by (cbn; lia).
  destruct (delete_by_negative_index (-1) three_trades) as (Hdel & _).
  destruct (delete_by_negative_index (-4) three_trades) as (_ & Hraise & _).
  split; [exact Hin |]. split; [| split; [exact Hout |]].
  - exact (proj2 (Hdel Hin)).
  - exact (Hraise Hout).
Defined.

(** The scenario of the specification: from 0, BUY 30 then SELL 10 never
    shows a positive flow, so the high-water mark stays 0. *)
Example hwm_buy_then_sell :
  max_val (hwm_loop 0 [mkTrade BUY 30 0; mkTrade SELL 10 0]) == 0.
Proof. reflexivity. Qed.

(** From 20, BUY 30, SELL 10, SELL 50: the flows are -30, -30 and 10. *)
Example hwm_three_trades : hwm_spot_flow OKX three_trades == 10.
Proof. reflexivity. Qed.

(** A later BUY does not lower a peak already reached. *)
Example hwm_keeps_peak :
  max_val (hwm_loop 0 [mkTrade SELL 10 0; mkTrade BUY 10 0]) == 10.
Proof. reflexivity. Qed.

(** Deleting position 0 of [SELL 5; BUY 3] leaves [BUY 3]. *)
Example delete_first_of_two :
  Py.pop [mkTrade SELL 5 0; mkTrade BUY 3 0] 0
  = Some (mkTrade SELL 5 0, [mkTrade BUY 3 0]).
Proof. reflexivity. Qed.

(** ** Reset and recalculation *)

(** The reset button empties both ledgers and sets the six number inputs
    to 0; every derived result of the session it leaves is 0 in either
    mode, and pressing it again changes nothing. *)
Theorem reset_gives_zero_session (st : session_state) :
  fst (reset_trades_callback st) = Py.Returned /\
  sim_trades (snd (reset_trades_callback st)) = [] /\
  sim_futures_pnl (snd (reset_trades_callback st)) = [] /\
  (sim_start_bal (snd (reset_trades_callback st)),
   sim_end_bal (snd (reset_trades_callback st)),
   sim_ext_dep (snd (reset_trades_callback st)),
   sim_ext_wd (snd (reset_trades_callback st)),
   sim_manual_pnl (snd (reset_trades_callback st)),
   sim_init_spot (snd (reset_trades_callback st))) = (0, 0, 0, 0, 0, 0) /\
  (forall mode,
      hwm_spot_flow mode (snd (reset_trades_callback st)) = 0 /\
      principal_adj mode (snd (reset_trades_callback st)) == 0 /\
      adjusted_pnl mode (snd (reset_trades_callback st)) == 0 /\
      roi mode (snd (reset_trades_callback st)) = inr 0) /\
  val_current_spot OKX (snd (reset_trades_callback st)) = Some 0 /\
  reset_trades_callback (snd (reset_trades_callback st))
  = reset_trades_callback st.
Proof.
  repeat split; try reflexivity; destruct mode; reflexivity.
Qed.

(** [recalc_balance] can be run any number of times: a second run changes
    nothing.  Its result does not depend on the end balance or on the totals
    stored before, so an end balance typed by hand is lost at the next
    recalculation; the ledgers and the other inputs are left alone. *)
Theorem recalc_balance_idempotent (st : session_state) :
  recalc_balance (recalc_balance st) = recalc_balance st /\
  (forall e s b,
      recalc_balance
        (mkState (sim_trades st) (sim_futures_pnl st) (sim_start_bal st) e
                 (sim_ext_dep st) (sim_ext_wd st) (sim_manual_pnl st)
                 (sim_init_spot st) s b (new_sell_input st) (new_sell_pnl st)
                 (new_buy_input st) (new_futures_pnl_input st))
      = recalc_balance st) /\
  sim_trades (recalc_balance st) = sim_trades st /\
  sim_futures_pnl (recalc_balance st) = sim_futures_pnl st /\
  (sim_start_bal (recalc_balance st), sim_ext_dep (recalc_balance st),
   sim_ext_wd (recalc_balance st), sim_init_spot (recalc_balance st),
   sim_manual_pnl (recalc_balance st))
  = (sim_start_bal st, sim_ext_dep st, sim_ext_wd st, sim_init_spot st,
     sim_manual_pnl st).
Proof.
  repeat split.
Qed.

(** ** What the ledgers can hold *)

Lemma Forall_remove_at {A : Type} (P : A -> Prop) (i : nat) (xs : list A) :
  Forall P xs -> Forall P (remove_at i xs).
Proof.
  intros H. unfold remove_at. rewrite Forall_forall in *.
  intros x Hx. apply H. apply in_app_or in Hx as [Hx | Hx].
  - rewrite <- (firstn_skipn i xs). apply in_or_app. now left.
  - rewrite <- (firstn_skipn (S i) xs). apply in_or_app. now right.
Qed.

Lemma pop_keeps_Forall {A : Type} (P : A -> Prop) (xs : list A) (i : Z)
  (x : A) (rest : list A) :
  Py.pop xs i = Some (x, rest) -> Forall P xs -> Forall P rest.
Proof.
  unfold Py.pop. intros H HP.
  destruct (_ || _)%bool; [discriminate |].
  destruct (nth_error xs _); [| discriminate].
  injection H as _ <-. now apply (Forall_remove_at P).
Qed.

(** Every trade of the ledger has a strictly positive amount, every BUY has
    the PnL entry 0 and no futures PnL entry is zero: this holds in a fresh
    session, after the reset button, and is kept by [recalc_balance] and by
    every ledger button, whatever was typed into the input boxes. *)
Theorem ledger_ok_preserved (b : ledger_button) (st : session_state) :
  ledger_ok st ->
  ledger_ok (snd (on_click b st)) /\
  ledger_ok (recalc_balance st) /\
  ledger_ok (snd (reset_trades_callback st)) /\
  ledger_ok fresh_session.
Proof.
  intros [Ht Hf].
  assert (Hfresh : ledger_ok fresh_session) by (split; constructor).
  split; [| split; [split; assumption | split; [exact Hfresh | exact Hfresh]]].
  destruct b as [| | idx | | idx]; cbn [on_click];
    unfold add_sell_callback, add_buy_callback, del_trade_callback,
      add_futures_pnl_callback, del_futures_pnl_callback.
  - destruct (Py.ltb 0 (new_sell_input st)) eqn:E; [| split; assumption].
    apply ltb_true_iff in E. split; [| exact Hf].
    cbn. apply Forall_app. split; [exact Ht |].
    constructor; [| constructor]. split; [exact E | discriminate].
  - destruct (Py.ltb 0 (new_buy_input st)) eqn:E; [| split; assumption].
    apply ltb_true_iff in E. split; [| exact Hf].
    cbn. apply Forall_app. split; [exact Ht |].
    constructor; [| constructor]. split; [exact E | reflexivity].
  - destruct (Py.pop (sim_trades st) idx) as [[x rest] |] eqn:E;
      [| split; assumption].
    split; [| exact Hf]. cbn. exact (pop_keeps_Forall _ _ _ _ _ E Ht).
  - destruct (Qeq_bool (new_futures_pnl_input st) 0) eqn:E; cbn [negb];
      [split; assumption |].
    split; [exact Ht |]. cbn. apply Forall_app. split; [exact Hf |].
    constructor; [| constructor].
    intros H. apply Qeq_eq_bool in H. congruence.
  - destruct (Py.pop (sim_futures_pnl st) idx) as [[x rest] |] eqn:E;
      [| split; assumption].
    split; [exact Ht |]. cbn. exact (pop_keeps_Forall _ _ _ _ _ E Hf).
Qed.

Lemma ledger_ok_preserved_witness :
  ledger_ok three_trades /\
  ledger_ok (snd (on_click AddFuturesPnl three_trades)).
Proof.
  assert (H : ledger_ok three_trades).
  { split.
    - repeat constructor; discriminate.
    - repeat constructor; vm_compute; discriminate. }
  split; [exact H |].
  exact (proj1 (ledger_ok_preserved AddFuturesPnl three_trades H)).
Defined.

(** ** Adding, then deleting *)

Lemma pop_last {A : Type} (xs : list A) (x : A) (i : Z) :
  i = Z.of_nat (length xs) \/ i = (-1)%Z ->
  Py.pop (xs ++ [x]) i = Some (x, xs).
Proof.
  intros Hi.
  assert (Hn : Z.of_nat (length (xs ++ [x])) = (Z.of_nat (length xs) + 1)%Z)
    by (rewrite length_app; cbn [length]; lia).
  assert (E : Py.pop (xs ++ [x]) i = Py.pop (xs ++ [x]) (Z.of_nat (length xs))).
  { destruct Hi as [-> | ->]; [reflexivity |].
    rewrite pop_from_end by lia. f_equal. lia. }
  rewrite E.
  destruct (pop_in_range (xs ++ [x]) (Z.of_nat (length xs))) as (y & Hy & ->);
    [lia |].
  rewrite Nat2Z.id in *.
  rewrite nth_error_app2, Nat.sub_diag in Hy by lia.
  injection Hy as <-. now rewrite remove_at_last.
Qed.

(** An accepted "add" followed by a delete at the position of the new entry
    (the old length, or -1) undoes the add: the session is the one
    [recalc_balance] gives from the session before the add.  This holds for
    a sell, a buy and a futures PnL entry. *)
Theorem add_then_delete_restores (i : Z) (st : session_state) :
  (0 < new_sell_input st ->
   i = Z.of_nat (length (sim_trades st)) \/ i = (-1)%Z ->
     del_trade_callback i (snd (add_sell_callback st))
     = (Py.Returned, recalc_balance st)) /\
  (0 < new_buy_input st ->
   i = Z.of_nat (length (sim_trades st)) \/ i = (-1)%Z ->
     del_trade_callback i (snd (add_buy_callback st))
     = (Py.Returned, recalc_balance st)) /\
  (~ new_futures_pnl_input st == 0 ->
   i = Z.of_nat (length (sim_futures_pnl st)) \/ i = (-1)%Z ->
     del_futures_pnl_callback i (snd (add_futures_pnl_callback st))
     = (Py.Returned, recalc_balance st)).
Proof.
  split; [| split]; intros H Hi.
  - apply ltb_true_iff in H.
    unfold add_sell_callback. rewrite H. cbn [snd].
    unfold del_trade_callback. cbn [recalc_balance set_sim_trades sim_trades].
    now rewrite (pop_last _ _ _ Hi).
  - apply ltb_true_iff in H.
    unfold add_buy_callback. rewrite H. cbn [snd].
    unfold del_trade_callback. cbn [recalc_balance set_sim_trades sim_trades].
    now rewrite (pop_last _ _ _ Hi).
  - assert (E : Qeq_bool (new_futures_pnl_input st) 0 = false).
    { apply not_true_is_false. intro E. now apply Qeq_bool_eq in E. }
    unfold add_futures_pnl_callback. rewrite E. cbn [negb snd].
    unfold del_futures_pnl_callback.
    cbn [recalc_balance set_sim_futures_pnl sim_futures_pnl].
    now rewrite (pop_last _ _ _ Hi).
Qed.

Lemma add_then_delete_restores_witness :
  0 < new_sell_input sell_5_typed /\
  del_trade_callback (-1) (snd (add_sell_callback sell_5_typed))
  = (Py.Returned, recalc_balance sell_5_typed).
Proof.
  assert (H : 0 < new_sell_input sell_5_typed) by reflexivity.
  split; [exact H |].
  exact (proj1 (add_then_delete_restores (-1) sell_5_typed) H
               (or_intror eq_refl)).
Defined.

(** ** Bounds on the high-water mark *)

Ltac case_max a b :=
  let H := fresh "Hmax" in
  destruct (Q.max_spec a b) as [[? H] | [? H]].

Ltac case_min a b :=
  let H := fresh "Hmin" in
  destruct (Q.min_spec a b) as [[? H] | [? H]].


Lemma hwm_nonneg (i : Q) (p : list trade) : 0 <= max_val (hwm_loop i p).
Proof.
  destruct (hwm_loop_invariant i p) as (_ & _ & ->).
  pose proof (fold_right_Qmax_spec
                (map (Spec.flow i) (Spec.nonempty_prefixes p))) as (H & _ & _).
  exact H.
Qed.

(** With a non-negative initial balance the flow after any prefix, the
    empty one included, is below the high-water mark. *)
Lemma flow_le_hwm (i : Q) (p : list trade) :
  0 <= i -> Spec.flow i p <= max_val (hwm_loop i p).
Proof.
  intros Hi. destruct p as [| e p _] using rev_ind.
  - unfold Spec.flow. cbn. case_min 0 i; lra.
  - rewrite hwm_loop_max_snoc. apply Q.le_max_r.
Qed.


Lemma hwm_spot_flow_OKX_unfold (st : session_state) :
  hwm_spot_flow OKX st = max_val (hwm_loop (sim_init_spot st) (sim_trades st)).
Proof. reflexivity. Qed.

Lemma principal_adj_OKX_value (st : session_state) :
  principal_adj OKX st == sim_ext_dep st + hwm_spot_flow OKX st.
Proof.
  unfold principal_adj, val_external_dep. cbn [startswith_OKX use_hwm].
  pose proof (hwm_nonneg (sim_init_spot st) (sim_trades st)) as H.
  rewrite <- hwm_spot_flow_OKX_unfold in H.
  destruct (max_cases 0 (hwm_spot_flow OKX st)) as [[_ ->] | [? ->]]; lra.
Qed.





(** ** High-water mark against the net flow *)





(** ** What one more trade does to the high-water mark *)

Lemma hwm_after_buy (i : Q) (p : list trade) (e : trade) :
  0 <= i -> 0 <= amount e -> ttype e = BUY ->
  max_val (hwm_loop i (p ++ [e])) == max_val (hwm_loop i p).
Proof.
  intros Hi Ha Ht.
  rewrite hwm_loop_max_snoc.
  pose proof (flow_le_hwm i p Hi) as Hf.
  pose proof (total_snoc SELL p e) as HS.
  pose proof (total_snoc BUY p e) as HB.
  rewrite Ht in HS, HB. cbn [side_eqb] in HS, HB.
  assert (Hfl : Spec.flow i (p ++ [e]) <= Spec.flow i p).
  { unfold Spec.flow in *.
    case_min (Spec.total SELL (p ++ [e])) i; case_min (Spec.total SELL p) i; lra. }
  case_max (max_val (hwm_loop i p)) (Spec.flow i (p ++ [e])); lra.
Qed.

(** With a non-negative initial spot balance, the "add buy" button never
    changes the high-water mark, hence never the principal adjustment; the
    "add sell" button never lowers the high-water mark. *)
Theorem hwm_after_add_buttons (st : session_state) :
  0 <= sim_init_spot st ->
  hwm_spot_flow OKX (snd (add_buy_callback st)) == hwm_spot_flow OKX st /\
  principal_adj OKX (snd (add_buy_callback st)) == principal_adj OKX st /\
  hwm_spot_flow OKX st <= hwm_spot_flow OKX (snd (add_sell_callback st)).
Proof.
  intros Hi.
  assert (Hb : hwm_spot_flow OKX (snd (add_buy_callback st))
               == hwm_spot_flow OKX st).
  { unfold add_buy_callback.
    destruct (Py.ltb 0 (new_buy_input st)) eqn:E; [| reflexivity].
    apply ltb_true_iff in E. cbn [snd].
    apply (hwm_after_buy (sim_init_spot st) (sim_trades st)
                         (mkTrade BUY (new_buy_input st) 0)); cbn; [lra | lra | reflexivity]. }
  split; [exact Hb |]. split.
  { rewrite !principal_adj_OKX_value, Hb.
    unfold add_buy_callback. now destruct (Py.ltb 0 (new_buy_input st)). }
  unfold add_sell_callback.
  destruct (Py.ltb 0 (new_sell_input st)) eqn:E; cbn [snd].
  - pose proof (hwm_loop_max_snoc (sim_init_spot st) (sim_trades st)
                  (mkTrade SELL (new_sell_input st) (new_sell_pnl st))) as Hm.
    change (hwm_spot_flow OKX
              (recalc_balance
                 (set_sim_trades
                    (sim_trades st ++ [mkTrade SELL (new_sell_input st) (new_sell_pnl st)])
                    st)))
      with (max_val (hwm_loop (sim_init_spot st)
                       (sim_trades st ++ [mkTrade SELL (new_sell_input st) (new_sell_pnl st)]))).
    rewrite hwm_spot_flow_OKX_unfold, Hm. apply Q.le_max_l.
  - lra.
Qed.

Lemma hwm_after_add_buttons_witness :
  0 <= sim_init_spot buy_4_typed /\
  sim_trades (snd (add_buy_callback buy_4_typed))
  = [mkTrade SELL 50 0; mkTrade BUY 5 0; mkTrade BUY 4 0] /\
  hwm_spot_flow OKX (snd (add_buy_callback buy_4_typed))
  == hwm_spot_flow OKX buy_4_typed.
Proof.
  assert (Hi : 0 <= sim_init_spot buy_4_typed) by discriminate.
  split; [exact Hi |]. split; [reflexivity |].
  exact (proj1 (hwm_after_add_buttons buy_4_typed Hi)).
Defined.

(** ** The PnL tag *)

Lemma hwm_loop_with_pnl (f : trade -> Q) (i : Q) (l : list trade) :
  hwm_loop i (map (with_pnl f) l) = hwm_loop i l.
Proof.
  unfold hwm_loop. generalize (mkHwm 0 0 0).
  induction l as [| t l IH]; intro v; cbn [map fold_left].
  - reflexivity.
  - apply IH.
Qed.

Lemma sum_amount_with_pnl (f : trade -> Q) (s : side) (l : list trade) :
  sum_amount s (map (with_pnl f) l) = sum_amount s l.
Proof.
  unfold sum_amount. f_equal.
  induction l as [| t l IH]; cbn [map filter with_pnl ttype].
  - reflexivity.
  - destruct (side_eqb (ttype t) s); cbn [map amount]; now rewrite IH.
Qed.

(** The PnL tags of the trades play no part in the ROI: with any other tags
    on the same trades the high-water mark, the principal adjustment, the
    adjusted PnL and the ROI are the same, in either mode. *)
Theorem pnl_tags_do_not_affect_roi (f : trade -> Q) (mode : exchange_mode)
  (st : session_state) :
  hwm_spot_flow mode (set_sim_trades (map (with_pnl f) (sim_trades st)) st)
  = hwm_spot_flow mode st /\
  principal_adj mode (set_sim_trades (map (with_pnl f) (sim_trades st)) st)
  = principal_adj mode st /\
  adjusted_pnl mode (set_sim_trades (map (with_pnl f) (sim_trades st)) st)
  = adjusted_pnl mode st /\
  roi mode (set_sim_trades (map (with_pnl f) (sim_trades st)) st)
  = roi mode st.
Proof.
  assert (Hh : hwm_spot_flow mode
                 (set_sim_trades (map (with_pnl f) (sim_trades st)) st)
               = hwm_spot_flow mode st).
  { unfold hwm_spot_flow, val_initial_spot.
    cbn [set_sim_trades sim_trades sim_init_spot].
    now rewrite hwm_loop_with_pnl. }
  assert (Hp : principal_adj mode
                 (set_sim_trades (map (with_pnl f) (sim_trades st)) st)
               = principal_adj mode st).
  { unfold principal_adj. rewrite Hh. reflexivity. }
  assert (Ha : adjusted_pnl mode
                 (set_sim_trades (map (with_pnl f) (sim_trades st)) st)
               = adjusted_pnl mode st).
  { unfold adjusted_pnl, total_deposit, total_withdrawal, val_spot_sell,
      val_spot_buy.
    cbn [set_sim_trades sim_trades].
    now rewrite !sum_amount_with_pnl. }
  repeat split; try assumption.
  unfold roi, denominator. rewrite Hp, Ha. reflexivity.
Qed.

(** ** Position rows *)

(** The ROI of a Binance position row divides by the leverage without a
    guard: a leverage of 0 raises ZeroDivisionError.  For any other
    leverage the row is computed and nothing is raised: the direction is
    LONG exactly when the amount is positive and SHORT otherwise, and when
    the margin entry * |amount| / leverage is not positive (a negative
    leverage, a zero entry price) the ROI is 0. *)
Theorem binance_position_roi_spec (amt entry_price upl leverage : Q) :
  (leverage == 0 ->
     binance_position_roi amt entry_price upl leverage
     = inl Py.ZeroDivisionError) /\
  (~ leverage == 0 ->
     exists side r,
       binance_position_roi amt entry_price upl leverage = inr (side, r) /\
       (0 < amt -> side = "LONG"%string) /\
       (amt <= 0 -> side = "SHORT"%string) /\
       (entry_price * Qabs amt / leverage <= 0 -> r = 0)).
Proof.
  unfold binance_position_roi, Py.truediv. split; intros Hl.
  - apply Qeq_eq_bool in Hl. now rewrite Hl.
  - assert (E : Qeq_bool leverage 0 = false).
    { apply not_true_is_false. intro E. now apply Qeq_bool_eq in E. }
    rewrite E. set (margin := entry_price * Qabs amt / leverage).
    destruct (Py.ltb 0 margin) eqn:Em.
    + apply ltb_true_iff in Em.
      assert (E2 : Qeq_bool margin 0 = false).
      { apply not_true_is_false. intro E2. apply Qeq_bool_eq in E2. lra. }
      rewrite E2. eexists _, _. split; [reflexivity |].
      split; [| split].
      * intros H. apply ltb_true_iff in H. now rewrite H.
      * intros H. apply ltb_false_iff in H. now rewrite H.
      * intros H. lra.
    + apply ltb_false_iff in Em.
      eexists _, _. split; [reflexivity |].
      split; [| split].
      * intros H. apply ltb_true_iff in H. now rewrite H.
      * intros H. apply ltb_false_iff in H. now rewrite H.
      * reflexivity.
Qed.

Lemma binance_position_roi_spec_witness :
  ~ -20 == 0 /\
  0 == 0 /\
  binance_position_roi (-2) 100 5 0 = inl Py.ZeroDivisionError /\
  exists side r,
    binance_position_roi (-2) 100 5 (-20) = inr (side, r) /\
    side = "SHORT"%string /\ r = 0.
Proof.
  assert (H20 : ~ -20 == 0) by discriminate.
  assert (H0 : 0 == 0) by reflexivity.
  split; [exact H20 |]. split; [exact H0 |].
  split; [exact (proj1 (binance_position_roi_spec (-2) 100 5 0) H0) |].
  destruct (proj2 (binance_position_roi_spec (-2) 100 5 (-20)) H20)
    as (side & r & E & _ & Hs & Hr).
  exists side, r. split; [exact E |]. split.
  - apply Hs. discriminate.
  - apply Hr. discriminate.
Defined.

Lemma okx_ct_val_absent (inst_map : list (string * Q)) (inst_id : string) :
  (forall kv, In kv inst_map -> fst kv <> inst_id) ->
  okx_ct_val inst_map inst_id = 0.
Proof.
  intros H. unfold okx_ct_val.
  destruct (find _ inst_map) as [kv |] eqn:E; [| reflexivity].
  apply find_some in E as [Hin Heq].
  apply String.eqb_eq in Heq. now apply H in Hin.
Qed.

(** An OKX position row: with a posSide of net the direction is LONG,
    SHORT or FLAT by the sign of the position, with long or short it is
    that side whatever the sign, and any other posSide is shown in upper
    case.  The real quantity is 0 for an instrument whose contract value
    could not be fetched, and never negative when no fetched contract value
    is. *)
Theorem okx_position_row (upper : string -> string)
  (inst_map : list (string * Q)) (inst_id raw_side : string) (pos_sz : Q) :
  (raw_side = "net"%string ->
     (0 < pos_sz -> okx_final_side upper raw_side pos_sz = "LONG"%string) /\
     (pos_sz < 0 -> okx_final_side upper raw_side pos_sz = "SHORT"%string) /\
     (pos_sz == 0 -> okx_final_side upper raw_side pos_sz = "FLAT"%string)) /\
  (raw_side = "long"%string ->
     okx_final_side upper raw_side pos_sz = "LONG"%string) /\
  (raw_side = "short"%string ->
     okx_final_side upper raw_side pos_sz = "SHORT"%string) /\
  (raw_side <> "net"%string -> raw_side <> "long"%string ->
   raw_side <> "short"%string ->
     okx_final_side upper raw_side pos_sz = upper raw_side) /\
  ((forall kv, In kv inst_map -> fst kv <> inst_id) ->
     okx_real_qty inst_map inst_id pos_sz == 0) /\
  ((forall kv, In kv inst_map -> 0 <= snd kv) ->
     0 <= okx_real_qty inst_map inst_id pos_sz).
Proof.
  split; [| split; [| split; [| split; [| split]]]].
  - intros ->. unfold okx_final_side. cbn [String.eqb Ascii.eqb Bool.eqb].
    cbn. repeat split; intros H.
    + apply ltb_true_iff in H. now rewrite H.
    + assert (E : Py.ltb 0 pos_sz = false) by (apply ltb_false_iff; lra).
      apply ltb_true_iff in H. now rewrite E, H.
    + assert (E1 : Py.ltb 0 pos_sz = false) by (apply ltb_false_iff; lra).
      assert (E2 : Py.ltb pos_sz 0 = false) by (apply ltb_false_iff; lra).
      now rewrite E1, E2.
  - intros ->. reflexivity.
  - intros ->. reflexivity.
  - intros H1 H2 H3. unfold okx_final_side.
    apply String.eqb_neq in H1, H2, H3. now rewrite H1, H2, H3.
  - intros H. unfold okx_real_qty. rewrite (okx_ct_val_absent _ _ H). lra.
  - intros H. unfold okx_real_qty, okx_ct_val.
    apply Qmult_le_0_compat; [apply Qabs_nonneg |].
    destruct (find _ inst_map) as [kv |] eqn:E; [| lra].
    apply find_some in E as [Hin _]. now apply H.
Qed.

(** ** The error test on a response *)

Lemma dict_get_some_nonempty (kv : list (string * pyval)) (k : string)
  (v : pyval) :
  dict_get kv k = Some v -> truthy (VDict kv) = true.
Proof. destruct kv; [discriminate | reflexivity]. Qed.

Lemma get_differs_false (kv : list (string * pyval)) (k s : string) :
  get_differs kv k s = false <-> dict_get kv k = Some (VStr s).
Proof.
  unfold get_differs.
  destruct (dict_get kv k) as [[| b | q | s' | xs | d] |];
    try (split; intros H; discriminate H).
  rewrite negb_false_iff, String.eqb_eq.
  split; [now intros -> | now intros [= ->]].
Qed.

(** The fetch step of an OKX scenario goes on to the data exactly for a
    dict whose ['code'] is the string "0" (a number 0 is an error), and then
    the data is the ['data'] entry, or the empty list when there is none.
    Every other dict, and every empty or null response, stops the script
    with the API error, as does the [{"error": ...}] dict of a failed
    request.  A non-empty response that is not a dict (the text of a body
    that is not JSON, a JSON list) passes the error test and then raises
    AttributeError. *)
Theorem okx_fetch_spec (raw_res : pyval) :
  (forall d,
      okx_fetch raw_res = RawData d <->
      exists kv,
        raw_res = VDict kv /\
        dict_get kv "code" = Some (VStr "0") /\
        d = match dict_get kv "data" with Some v => v | None => VList [] end) /\
  (okx_fetch raw_res = AttributeError <->
   truthy raw_res = true /\ forall kv, raw_res <> VDict kv) /\
  (forall kv,
      raw_res = VDict kv -> dict_get kv "code" <> Some (VStr "0") ->
      okx_fetch raw_res = Stopped) /\
  (truthy raw_res = false -> okx_fetch raw_res = Stopped) /\
  (forall msg, okx_fetch (client_failure msg) = Stopped) /\
  (forall s, s <> EmptyString -> okx_fetch (VStr s) = AttributeError).
Proof.
  assert (Hdict : forall kv,
             okx_fetch (VDict kv)
             = if truthy (VDict kv) && negb (get_differs kv "code" "0")
               then RawData (match dict_get kv "data" with
                             | Some v => v | None => VList [] end)
               else Stopped).
  { intros kv. unfold okx_fetch, is_error.
    destruct (truthy (VDict kv)); cbn [negb andb]; [| reflexivity].
    now destruct (get_differs kv "code" "0"). }
  assert (Hfalsy : truthy raw_res = false -> okx_fetch raw_res = Stopped).
  { intros H. unfold okx_fetch, is_error. now rewrite H. }
  split; [| split; [| split; [| split; [| split]]]].
  - intros d. split.
    + intros H. destruct raw_res as [| b | q | s | xs | kv];
        try (unfold okx_fetch, is_error in H;
             destruct (negb _) in H; discriminate H).
      rewrite Hdict in H.
      destruct (truthy (VDict kv)); cbn [andb] in H; [| discriminate].
      destruct (get_differs kv "code" "0") eqn:E; cbn [negb] in H;
        [discriminate |].
      apply get_differs_false in E. injection H as <-.
      exists kv. repeat split. exact E.
    + intros (kv & -> & Hc & ->). rewrite Hdict.
      rewrite (dict_get_some_nonempty _ _ _ Hc).
      apply get_differs_false in Hc. now rewrite Hc.
  - split.
    + intros H. destruct (truthy raw_res) eqn:T.
      * split; [reflexivity |]. intros kv ->. rewrite Hdict in H.
        destruct (_ && _)%bool; discriminate.
      * rewrite (Hfalsy eq_refl) in H. discriminate.
    + intros [T Hn]. unfold okx_fetch, is_error. rewrite T. cbn [negb].
      destruct raw_res as [| b | q | s | xs | kv]; try reflexivity.
      now contradiction (Hn kv).
  - intros kv -> Hc. rewrite Hdict.
    destruct (get_differs kv "code" "0") eqn:E.
    + now rewrite andb_false_r.
    + apply get_differs_false in E. contradiction.
  - exact Hfalsy.
  - reflexivity.
  - intros s Hs. unfold okx_fetch, is_error. cbn [truthy].
    apply String.eqb_neq in Hs. now rewrite Hs.
Qed.

(** On a Binance response the test for ['msg'] makes no difference: a dict
    is an error exactly when it is empty, or has a ['code'] and no
    ['totalWalletBalance'].  So the [{"error": ...}] dict of a failed
    request is not taken as an error, nor is a dict with only a ['msg'];
    and no non-empty list or text is, for either exchange. *)
Theorem binance_is_error_spec (kv : list (string * pyval)) :
  is_error Binance (VDict kv)
  = (negb (truthy (VDict kv))
     || (dict_has kv "code" && negb (dict_has kv "totalWalletBalance")))%bool /\
  (forall msg, is_error Binance (client_failure msg) = false) /\
  (forall v, is_error Binance (VDict [("msg"%string, v)]) = false) /\
  (forall exchange v,
      truthy v = true -> (forall d, v <> VDict d) ->
      is_error exchange v = false).
Proof.
  split; [| split; [| split]].
  - unfold is_error.
    destruct (truthy (VDict kv)); cbn [negb orb]; [| reflexivity].
    destruct (dict_has kv "code"), (dict_has kv "msg"),
      (dict_has kv "totalWalletBalance"); reflexivity.
  - reflexivity.
  - reflexivity.
  - intros exchange v T Hn. unfold is_error. rewrite T. cbn [negb].
    destruct v as [| b | q | s | xs | d]; try reflexivity.
    now contradiction (Hn d).
Qed.
